(** * pubg_donat_bot: the order table and the handlers that touch it

    A shallow embedding of [src/pubg_donat_bot.py].  The bot keeps one SQLite
    table, [orders], and five handlers write to it or read from it:
    [process_option] and [got_payment] insert a row through [add_order],
    [cmd_paid] and [cmd_fulfill] update the [status] column of one row, and
    [my_orders] lists the rows of one user.

    Modelling choices.
    - The table is a finite map from the primary key [id] to the remaining
      columns, together with the counter SQLite keeps for an AUTOINCREMENT key
      (the largest id handed out so far).  Integers are unbounded ([Z]); the
      64-bit storage limit of the engine is not part of the model.
    - [status] is a TEXT column and is kept as a string, compared as the
      handlers compare it.
    - A handler is a function from the table to a reply and a table.  The
      reply names the message the handler sends; best-effort notifications are
      recorded as the recipients they are addressed to.
    - A handler runs from its first line to its last before the next one
      starts; two handlers interleaving at their [await] points are not
      modelled.
    - A character of a Python string is a code point from 0 to 255, and
      [str.isdigit], [str.strip] and [int] are given on these; code points
      above 255 and the interpreter's limit on the length of a numeral are not
      modelled. *)

From Stdlib Require Import Ascii.
From stdpp Require Import gmap strings list sorting.

Local Open Scope string_scope.
Local Open Scope Z_scope.

(** ** Python string methods used by the bot *)

Module Py.

(** A character is its code point, 0 to 255. *)
Definition code (c : ascii) : Z := Z.of_N (Ascii.N_of_ascii c).

(** [c.isspace()]: tab, line feed, vertical tab, form feed, carriage
    return, the separators 0x1c..0x1f, the space, NEL and the no-break
    space. *)
Definition isspace_char (c : ascii) : bool :=
  ((9 <=? code c) && (code c <=? 13)) || ((28 <=? code c) && (code c <=? 32))
  || (code c =? 133) || (code c =? 160).

(** [c.isdecimal()]: the digits 0 to 9. *)
Definition isdecimal_char (c : ascii) : bool :=
  (48 <=? code c) && (code c <=? 57).

(** [c.isdigit()]: the digits 0 to 9 and the superscripts two, three and
    one. *)
Definition isdigit_char (c : ascii) : bool :=
  isdecimal_char c || (code c =? 178) || (code c =? 179) || (code c =? 185).

(** White space for [int]: as [isspace_char] without the separators
    0x1c..0x1f. *)
Definition int_space_char (c : ascii) : bool :=
  ((9 <=? code c) && (code c <=? 13)) || (code c =? 32)
  || (code c =? 133) || (code c =? 160).

Fixpoint all_chars (p : ascii -> bool) (s : string) : bool :=
  match s with
  | EmptyString => true
  | String c r => p c && all_chars p r
  end.

(** [s.isdigit()]: at least one character, and every character a digit. *)
Definition isdigit (s : string) : bool :=
  match s with
  | EmptyString => false
  | String _ _ => all_chars isdigit_char s
  end.

Fixpoint lstrip_by (p : ascii -> bool) (s : string) : string :=
  match s with
  | EmptyString => EmptyString
  | String c r => if p c then lstrip_by p r else s
  end.

Fixpoint rstrip_by (p : ascii -> bool) (s : string) : string :=
  match s with
  | EmptyString => EmptyString
  | String c r =>
      match rstrip_by p r with
      | EmptyString => if p c then EmptyString else String c EmptyString
      | r' => String c r'
      end
  end.

(** [s.strip()] *)
Definition strip (s : string) : string :=
  rstrip_by isspace_char (lstrip_by isspace_char s).

(** [s.split(sep)] for a one-character separator: one more piece than there
    are separators, so never the empty list. *)
Fixpoint split (sep : ascii) (s : string) : list string :=
  match s with
  | EmptyString => [EmptyString]
  | String c r =>
      if Ascii.eqb c sep then EmptyString :: split sep r
      else match split sep r with
           | h :: t => String c h :: t
           | [] => [String c EmptyString]
           end
  end.

Definition digit_val (c : ascii) : Z := code c - 48.

(** The digits of a decimal literal, where single underscores may separate
    digits.  [prev] says whether the previous character was a digit. *)
Fixpoint digits (s : string) (acc : Z) (prev : bool) : option Z :=
  match s with
  | EmptyString => if prev then Some acc else None
  | String c r =>
      if isdecimal_char c then digits r (acc * 10 + digit_val c) true
      else if Ascii.eqb c "_"%char then
             if prev then digits r acc false else None
      else None
  end.

(** [int(s)] in base ten; [None] stands for [ValueError].  White space
    around the literal is skipped, a sign may come first. *)
Definition int (s : string) : option Z :=
  match rstrip_by int_space_char (lstrip_by int_space_char s) with
  | EmptyString => None
  | String c r =>
      if Ascii.eqb c "+"%char then digits r 0 false
      else if Ascii.eqb c "-"%char then Z.opp <$> digits r 0 false
      else digits (String c r) 0 false
  end.

(** Truth value of [x] for an optional string ([None] and [""] are false). *)
Definition truthy (x : option string) : bool :=
  match x with
  | Some (String _ _) => true
  | _ => false
  end.

(** [x or ""] *)
Definition or_empty (x : option string) : string :=
  match x with
  | Some (String c r) => String c r
  | _ => EmptyString
  end.

End Py.

(** ** Configuration *)

(** [ADMIN_IDS = [int(x) for x in ADMIN_IDS_ENV.split(",") if x.strip().isdigit()]].
    The list is built entry by entry; a [ValueError] of [int] aborts it. *)
Definition parse_admin_ids (ADMIN_IDS_ENV : string) : option (list Z) :=
  mapM Py.int
       (filter (λ x, Py.isdigit (Py.strip x) = true) (Py.split "," ADMIN_IDS_ENV)).

(** ** The [orders] table *)

(** One row without its key.  The column [option] is called [package] here,
    [option] being the name of a type. *)
Record order := Order {
  user_id : Z;
  username : string;
  package : string;
  amount : Z;
  status : string;
  created_at : Z;
  note : option string
}.

Definition set_status (st : string) (o : order) : order :=
  {| user_id := user_id o; username := username o; package := package o;
     amount := amount o; status := st; created_at := created_at o;
     note := note o |}.

(** The table and the AUTOINCREMENT counter of its key. *)
Record db := Db {
  rows : gmap Z order;
  seq : Z
}.

Definition empty_db : db := {| rows := ∅; seq := 0 |}.

(** [init_db]: CREATE TABLE IF NOT EXISTS keeps the table of an existing
    file and creates an empty one otherwise. *)
Definition init_db (file : option db) : db :=
  match file with
  | Some d => d
  | None => empty_db
  end.

(** [add_order]: INSERT with an AUTOINCREMENT key; returns [cur.lastrowid].
    [now] is CURRENT_TIMESTAMP, the default of [created_at]. *)
Definition add_order (uid : Z) (uname : string) (opt : string) (amt : Z)
    (st : string) (nt : option string) (now : Z) (d : db) : Z * db :=
  let id := seq d + 1 in
  (id, {| rows := <[id := {| user_id := uid; username := uname; package := opt;
                             amount := amt; status := st; created_at := now;
                             note := nt |}]> (rows d);
          seq := id |}).

(** UPDATE orders SET status=? WHERE id=? *)
Definition update_status (st : string) (order_id : Z) (d : db) : db :=
  {| rows := alter (set_status st) order_id (rows d); seq := seq d |}.

(** ** Messages of the chat transport *)

Module types.
Record User := { id : Z; username : option string }.
Record Message := { from_user : User; get_args : string }.
Record SuccessfulPayment := { invoice_payload : string; total_amount : Z }.
Record CallbackQuery := { cb_from_user : User; data : string }.
End types.

(** What a handler answers.  The first five are the error replies. *)
Inductive reply :=
| Usage                                   (* "Foydalanish: ..." *)
| NotFound                                (* "Buyurtma topilmadi." *)
| InvalidState (st : string)              (* "Buyurtma holati: {row[5]}. ..." *)
| Unauthorized                            (* "Foydalanuvchi emas." *)
| AlreadyDone                             (* "Buyurtma allaqachon bajarilgan." *)
| PaymentReported (order_id : Z) (notified : list Z)
| Fulfilled (order_id : Z) (notified : Z)
| OrderPlaced (order_id : Z) (notified : list Z)
| InvoiceSent
| PaymentRecorded (order_id : Z) (notified : list Z)
| Created (order_id : Z)                   (* add_order called directly *)
| Raised.                                 (* an exception left the handler *)

Definition is_error (r : reply) : bool :=
  match r with
  | Usage | NotFound | InvalidState _ | Unauthorized | AlreadyDone => true
  | _ => false
  end.

(** ** The handlers *)

Section Handlers.

Variable ADMIN_IDS : list Z.
Variable PROVIDER_TOKEN : option string.

(** [process_option]: a package button was pressed. *)
Definition process_option (call : types.CallbackQuery) (now : Z) (d : db)
    : reply * db :=
  match Py.split "_" (types.data call) with
  | _ :: uc :: a :: _ =>
      match Py.int a with
      | Some amount_cents =>
          let user := types.cb_from_user call in
          if Py.truthy PROVIDER_TOKEN then (InvoiceSent, d)
          else
            let '(order_id, d') :=
              add_order (types.id user) (Py.or_empty (types.username user))
                        (uc +:+ " UC") amount_cents "pending" None now d in
            (OrderPlaced order_id ADMIN_IDS, d')
      | None => (Raised, d)
      end
  | _ => (Raised, d)
  end.

(** [cmd_paid]: /paid <id> *)
Definition cmd_paid (message : types.Message) (d : db) : reply * db :=
  let args := Py.strip (types.get_args message) in
  if negb (Py.isdigit args) then (Usage, d)
  else
    match Py.int args with
    | None => (Raised, d)
    | Some order_id =>
        match rows d !! order_id with
        | None => (NotFound, d)
        | Some row =>
            if negb (String.eqb (status row) "pending")
            then (InvalidState (status row), d)
            else (PaymentReported order_id ADMIN_IDS,
                  update_status "paid_waiting" order_id d)
        end
    end.

(** [cmd_fulfill]: /fulfill <id>, administrators only. *)
Definition cmd_fulfill (message : types.Message) (d : db) : reply * db :=
  if negb (bool_decide (types.id (types.from_user message) ∈ ADMIN_IDS))
  then (Unauthorized, d)
  else
    let args := Py.strip (types.get_args message) in
    if negb (Py.isdigit args) then (Usage, d)
    else
      match Py.int args with
      | None => (Raised, d)
      | Some order_id =>
          match rows d !! order_id with
          | None => (NotFound, d)
          | Some row =>
              if String.eqb (status row) "done" then (AlreadyDone, d)
              else (Fulfilled order_id (user_id row),
                    update_status "done" order_id d)
          end
      end.

(** [got_payment]: the transport confirmed a payment; [pay] is
    [message.successful_payment], present by the handler's filter.  The
    reply records the id [add_order] returned. *)
Definition got_payment (message : types.Message)
    (pay : types.SuccessfulPayment) (now : Z) (d : db) : reply * db :=
  let payload := types.invoice_payload pay in
  let user := types.from_user message in
  let '(order_id, d') :=
    add_order (types.id user) (Py.or_empty (types.username user))
              payload (types.total_amount pay) "done" None now d in
  (PaymentRecorded order_id ADMIN_IDS, d').

End Handlers.

(** [my_orders]: SELECT id, option, amount, status, created_at FROM orders
    WHERE user_id=? ORDER BY id DESC *)
Definition id_desc (a b : Z * order) : Prop := a.1 >= b.1.

Global Instance id_desc_dec a b : Decision (id_desc a b).
Proof. unfold id_desc. apply _. Defined.

Definition select_by_user (uid : Z) (d : db) : list (Z * order) :=
  merge_sort id_desc
    (filter (λ r : Z * order, user_id r.2 = uid) (map_to_list (rows d))).

Definition listed (r : Z * order) : Z * string * Z * string * Z :=
  (r.1, package r.2, amount r.2, status r.2, created_at r.2).

Inductive listing :=
| NoOrders                                      (* "Sizda buyurtma yo'q." *)
| Orders (lines : list (Z * string * Z * string * Z)).

Definition my_orders (message : types.Message) (d : db) : listing :=
  let rws := listed <$> select_by_user (types.id (types.from_user message)) d in
  match rws with
  | [] => NoOrders
  | _ => Orders rws
  end.

(** ** Runs of the bot *)

(** One operation on the table: a direct call of [add_order], or one of the
    four handlers that write to the table. *)
Inductive op :=
| AddOrder (uid : Z) (uname opt : string) (amt : Z) (st : string)
           (nt : option string) (now : Z)
| ProcessOption (call : types.CallbackQuery) (now : Z)
| CmdPaid (message : types.Message)
| CmdFulfill (message : types.Message)
| GotPayment (message : types.Message) (pay : types.SuccessfulPayment) (now : Z).

Definition exec (admins : list Z) (token : option string) (o : op) (d : db)
    : reply * db :=
  match o with
  | AddOrder uid uname opt amt st nt now =>
      let '(order_id, d') := add_order uid uname opt amt st nt now d in
      (Created order_id, d')
  | ProcessOption call now => process_option admins token call now d
  | CmdPaid m => cmd_paid admins m d
  | CmdFulfill m => cmd_fulfill admins m d
  | GotPayment m pay now => got_payment admins m pay now d
  end.

(** The replies of a run, oldest first, and the table it leaves. *)
Fixpoint run (admins : list Z) (token : option string) (ops : list op) (d : db)
    : list reply * db :=
  match ops with
  | [] => ([], d)
  | o :: ops' =>
      let '(r, d1) := exec admins token o d in
      let '(rs, d2) := run admins token ops' d1 in
      (r :: rs, d2)
  end.

(** A run of the bot itself: [add_order] is reached through the handlers
    only. *)
Definition by_handler (o : op) : bool :=
  match o with
  | AddOrder _ _ _ _ _ _ _ => false
  | _ => true
  end.

(** The id a reply reports as newly assigned, if any. *)
Definition new_id (r : reply) : option Z :=
  match r with
  | Created i | OrderPlaced i _ | PaymentRecorded i _ => Some i
  | _ => None
  end.

(** ** Vocabulary of the properties *)

(** The position of a status on the path pending, paid_waiting, done. *)
Definition status_rank (st : string) : option nat :=
  if String.eqb st "pending" then Some 0%nat
  else if String.eqb st "paid_waiting" then Some 1%nat
  else if String.eqb st "done" then Some 2%nat
  else None.


(** Every row of the table has a status of the path. *)
Definition statuses_on_path (d : db) : Prop :=
  ∀ i row, rows d !! i = Some row → is_Some (status_rank (status row)).

(** The counter is at least every key of the table: what AUTOINCREMENT
    maintains. *)
Definition db_wf (d : db) : Prop :=
  ∀ i, is_Some (rows d !! i) → i <= seq d.

(** Two rows agree on every column but [status]. *)
Definition same_but_status (o o' : order) : Prop :=
  user_id o' = user_id o ∧ username o' = username o ∧ package o' = package o ∧
  amount o' = amount o ∧ created_at o' = created_at o ∧ note o' = note o.

(** The command argument of [message] is the numeral of [order_id]: the
    handler gets past its usage test and looks [order_id] up. *)
Definition names_order (message : types.Message) (order_id : Z) : Prop :=
  Py.isdigit (Py.strip (types.get_args message)) = true ∧
  Py.int (Py.strip (types.get_args message)) = Some order_id.

(** From [d] to [d'] nothing changed but the [status] of row [i]. *)
Definition only_status_changed (i : Z) (d d' : db) : Prop :=
  seq d' = seq d ∧
  (∀ j, j ≠ i → rows d' !! j = rows d !! j) ∧
  ∃ row row', rows d !! i = Some row ∧ rows d' !! i = Some row' ∧
              same_but_status row row'.


(** ** Sample data *)

Definition alice : types.User := {| types.id := 5; types.username := Some "alice" |}.
Definition bob : types.User := {| types.id := 6; types.username := None |}.
Definition root : types.User := {| types.id := 9; types.username := Some "root" |}.

Definition says (u : types.User) (a : string) : types.Message :=
  {| types.from_user := u; types.get_args := a |}.

Definition presses (u : types.User) (dat : string) : types.CallbackQuery :=
  {| types.cb_from_user := u; types.data := dat |}.

Definition paid_500 : types.SuccessfulPayment :=
  {| types.invoice_payload := "pay_500_5"; types.total_amount := 400 |}.

(** Alice ordered 100 UC by hand (order 1) and paid 500 UC through the
    transport (order 2); bob ordered 500 UC by hand (order 3). *)
Definition sample_ops : list op :=
  [ProcessOption (presses alice "opt_100_100") 10;
   GotPayment (says alice "") paid_500 20;
   ProcessOption (presses bob "opt_500_400") 30].

Definition sample_db : db := (run [9] None sample_ops empty_db).2.

(** Two direct calls of [add_order]. *)
Definition sample_calls : list op :=
  [AddOrder 5 "alice" "100 UC" 100 "pending" None 40;
   AddOrder 6 "" "gift" 1 "done" (Some "free") 50].

Definition order_1 : order :=
  {| user_id := 5; username := "alice"; package := "100 UC"; amount := 100;
     status := "pending"; created_at := 10; note := None |}.

(** ** Text the bot writes *)

Module PyText.

(** The digits of [n], most significant first, in front of [acc]; [fuel]
    bounds the number of digits after the first. *)
Fixpoint str_digits (fuel : nat) (n : Z) (acc : string) : string :=
  let acc' := String (Ascii.ascii_of_N (Z.to_N (48 + n mod 10))) acc in
  match fuel with
  | O => acc'
  | S f => if n <? 10 then acc' else str_digits f (n / 10) acc'
  end.

(** [str(n)], which is also what [f"{n}"] writes. *)
Definition str (n : Z) : string :=
  if n <? 0
  then String "-" (str_digits (Z.to_nat (Z.log2 (- n))) (- n) EmptyString)
  else str_digits (Z.to_nat (Z.log2 n)) n EmptyString.


End PyText.

(** ** The invoice of a package button *)

Module invoices.
Record LabeledPrice := { label : string; amount : Z }.
Record Invoice := {
  chat_id : Z;
  title : string;
  description : string;
  payload : string;
  provider_token : option string;
  currency : string;
  prices : list LabeledPrice
}.
End invoices.

(** The arguments of [bot.send_invoice] in [process_option]: what is sent
    when a provider token is configured ([None] when the handler raises
    before, or when it places the order by hand instead). *)
Definition invoice_sent (PROVIDER_TOKEN : option string) (CURRENCY : string)
    (call : types.CallbackQuery) : option invoices.Invoice :=
  match Py.split "_" (types.data call) with
  | _ :: uc :: a :: _ =>
      match Py.int a with
      | Some amount_cents =>
          let user := types.cb_from_user call in
          if Py.truthy PROVIDER_TOKEN then
            Some {| invoices.chat_id := types.id user;
                    invoices.title := uc +:+ " UC";
                    invoices.description := "Buyurtma: " +:+ uc +:+ " UC";
                    invoices.payload :=
                      "pay_" +:+ uc +:+ "_" +:+ PyText.str (types.id user);
                    invoices.provider_token := PROVIDER_TOKEN;
                    invoices.currency := CURRENCY;
                    invoices.prices :=
                      [{| invoices.label := uc +:+ " UC";
                          invoices.amount := amount_cents |}] |}
          else None
      | None => None
      end
  | _ => None
  end.

(** The total of an invoice: the sum of its prices. *)
Definition invoice_total (inv : invoices.Invoice) : Z :=
  foldr (λ p acc, invoices.amount p + acc) 0 (invoices.prices inv).

(** ** Further vocabulary *)

(** The keys of the table are exactly 1 up to the counter. *)
Definition db_dense (d : db) : Prop :=
  0 <= seq d ∧ ∀ i, is_Some (rows d !! i) ↔ 1 <= i <= seq d.

(** Every row of the table is done. *)
Definition all_done (d : db) : Prop :=
  ∀ i row, rows d !! i = Some row → status row = "done".

(** Replies of the path by hand: an order placed as pending, a payment
    reported, an order fulfilled. *)
Definition by_hand (r : reply) : bool :=
  match r with
  | OrderPlaced _ _ | PaymentReported _ _ | Fulfilled _ _ => true
  | _ => false
  end.

(** A selected row with the status of row [i] set to [st]. *)
Definition restatus (st : string) (i : Z) (r : Z * order) : Z * order :=
  if bool_decide (r.1 = i) then (r.1, set_status st r.2) else r.

(** The order id a command carries, if it gets past the usage test and
    [int]. *)
Definition order_arg (message : types.Message) : option Z :=
  let args := Py.strip (types.get_args message) in
  if Py.isdigit args then Py.int args else None.

(** What a reported payment does to a row. *)
Definition report_row (row : order) : order :=
  if String.eqb (status row) "pending" then set_status "paid_waiting" row
  else row.

(** A configured provider token. *)
Definition sample_token : option string := Some "provider-token".

(** The invoice of the 500 UC button for alice. *)
Definition sample_invoice : invoices.Invoice :=
  {| invoices.chat_id := 5; invoices.title := "500 UC";
     invoices.description := "Buyurtma: 500 UC";
     invoices.payload := "pay_500_5";
     invoices.provider_token := sample_token;
     invoices.currency := "USD";
     invoices.prices := [{| invoices.label := "500 UC";
                            invoices.amount := 400 |}] |}.

(** * Properties *)

(** ** Facts about the string methods *)

Section PyFacts.

Lemma digit_not_space c :
  Py.isdigit_char c = true → Py.isspace_char c = false.
Proof.
  unfold Py.isdigit_char, Py.isdecimal_char, Py.isspace_char.
  intros H. repeat (apply orb_true_iff in H as [H|H]).
  - apply andb_true_iff in H as [H1 H2]. apply Z.leb_le in H1, H2.
    repeat (apply orb_false_iff; split); try (apply Z.eqb_neq; lia);
      apply andb_false_iff; right; apply Z.leb_gt; lia.
  - apply Z.eqb_eq in H.
    repeat (apply orb_false_iff; split); try (apply Z.eqb_neq; lia);
      apply andb_false_iff; right; apply Z.leb_gt; lia.
  - apply Z.eqb_eq in H.
    repeat (apply orb_false_iff; split); try (apply Z.eqb_neq; lia);
      apply andb_false_iff; right; apply Z.leb_gt; lia.
  - apply Z.eqb_eq in H.
    repeat (apply orb_false_iff; split); try (apply Z.eqb_neq; lia);
      apply andb_false_iff; right; apply Z.leb_gt; lia.
Qed.

Lemma decimal_not_int_space c :
  Py.isdecimal_char c = true → Py.int_space_char c = false.
Proof.
  unfold Py.isdecimal_char, Py.int_space_char.
  intros [H1 H2]%andb_true_iff. apply Z.leb_le in H1, H2.
  repeat (apply orb_false_iff; split); try (apply Z.eqb_neq; lia).
  apply andb_false_iff; right; apply Z.leb_gt; lia.
Qed.

Lemma decimal_not_char c (k : ascii) :
  Py.isdecimal_char c = true → Py.isdecimal_char k = false →
  Ascii.eqb c k = false.
Proof.
  intros Hc Hk. apply Ascii.eqb_neq. intros ->. congruence.
Qed.

Lemma rstrip_by_none p q s :
  (∀ c, q c = true → p c = false) →
  Py.all_chars q s = true → Py.rstrip_by p s = s.
Proof.
  intros Hpq. induction s as [|c r IH]; simpl; [done|].
  intros [Hc Hr]%andb_true_iff. rewrite (IH Hr).
  destruct r; [|done]. by rewrite (Hpq c Hc).
Qed.

Lemma strip_by_none p q s :
  (∀ c, q c = true → p c = false) →
  Py.all_chars q s = true → Py.rstrip_by p (Py.lstrip_by p s) = s.
Proof.
  intros Hpq Hs. destruct s as [|c r]; [done|].
  assert (Hc : q c = true) by (simpl in Hs; by apply andb_true_iff in Hs as [? _]).
  simpl Py.lstrip_by. rewrite (Hpq c Hc). by eapply rstrip_by_none.
Qed.

(** A digit string has no white space to strip. *)
Lemma strip_isdigit s : Py.isdigit s = true → Py.strip s = s.
Proof.
  destruct s as [|c r]; [done|]. intros H. unfold Py.isdigit in H.
  unfold Py.strip. eapply strip_by_none; [apply digit_not_space|done].
Qed.

Lemma digits_all s : ∀ acc prev,
  Py.all_chars Py.isdecimal_char s = true → 0 <= acc →
  (s ≠ EmptyString ∨ prev = true) →
  ∃ n, Py.digits s acc prev = Some n ∧ 0 <= n.
Proof.
  induction s as [|c r IH]; intros acc prev Hs Hacc Hne; simpl.
  - destruct Hne as [?| ->]; [done|]. eauto.
  - simpl in Hs. apply andb_true_iff in Hs as [Hc Hr]. rewrite Hc.
    apply IH; [done| |by right].
    unfold Py.isdecimal_char in Hc. apply andb_true_iff in Hc as [H1 _].
    apply Z.leb_le in H1. unfold Py.digit_val. lia.
Qed.

(** On a string of the digits 0 to 9, [int] does not raise and its value is
    a natural number. *)
Lemma int_decimal s :
  s ≠ EmptyString → Py.all_chars Py.isdecimal_char s = true →
  ∃ n, Py.int s = Some n ∧ 0 <= n.
Proof.
  intros Hne H. unfold Py.int.
  rewrite (strip_by_none _ _ s decimal_not_int_space H).
  destruct s as [|c r]; [done|].
  assert (Hc : Py.isdecimal_char c = true) by (simpl in H; by apply andb_true_iff in H as [? _]).
  rewrite (decimal_not_char c "+" Hc), (decimal_not_char c "-" Hc) by done.
  apply digits_all; [done|lia|by left].
Qed.

Lemma decimal_isdigit s :
  s ≠ EmptyString → Py.all_chars Py.isdecimal_char s = true →
  Py.isdigit s = true.
Proof.
  intros Hne H. destruct s as [|c r]; [done|]. unfold Py.isdigit.
  revert H. generalize (String c r). clear.
  induction s as [|c r IH]; simpl; [done|].
  intros [Hc Hr]%andb_true_iff. unfold Py.isdigit_char at 1.
  rewrite Hc. simpl. by apply IH.
Qed.

(** A command whose argument is written with the digits 0 to 9 names an
    order, and its id is a natural number. *)
Lemma decimal_names_order (m : types.Message) :
  types.get_args m ≠ EmptyString →
  Py.all_chars Py.isdecimal_char (types.get_args m) = true →
  ∃ i, names_order m i ∧ 0 <= i.
Proof.
  intros Hne H. pose proof (decimal_isdigit _ Hne H) as Hd.
  destruct (int_decimal _ Hne H) as (i & Hi & ?).
  exists i. unfold names_order. rewrite (strip_isdigit _ Hd). done.
Qed.

End PyFacts.

(** ** What each handler can do *)

Section HandlerCases.

Variable admins : list Z.
Variable token : option string.

(** [cmd_paid], by the test that decides its reply. *)
Lemma cmd_paid_cases m d :
  ((∀ i, ¬ names_order m i) ∧
   (cmd_paid admins m d = (Usage, d) ∨ cmd_paid admins m d = (Raised, d)))
  ∨ ∃ i, names_order m i ∧
      ((rows d !! i = None ∧ cmd_paid admins m d = (NotFound, d))
       ∨ ∃ row, rows d !! i = Some row ∧
           ((status row ≠ "pending" ∧
             cmd_paid admins m d = (InvalidState (status row), d))
            ∨ (status row = "pending" ∧
               cmd_paid admins m d =
                 (PaymentReported i admins, update_status "paid_waiting" i d)))).
Proof.
  unfold cmd_paid, names_order.
  destruct (Py.isdigit (Py.strip (types.get_args m))) eqn:Hd; simpl;
    [|left; split; [by intros i [? _]|by left]].
  destruct (Py.int (Py.strip (types.get_args m))) as [i|] eqn:Hi;
    [|left; split; [by intros i [_ ?]|by right]].
  right. exists i. split; [done|].
  destruct (rows d !! i) as [row|]; [right; exists row; split; [done|]|by left].
  destruct (String.eqb_spec (status row) "pending") as [E|E]; simpl; auto.
Qed.

(** [cmd_fulfill], by the test that decides its reply. *)
Lemma cmd_fulfill_cases m d :
  ((types.id (types.from_user m) ∉ admins) ∧
   cmd_fulfill admins m d = (Unauthorized, d))
  ∨ (types.id (types.from_user m) ∈ admins) ∧
    (((∀ i, ¬ names_order m i) ∧
      (cmd_fulfill admins m d = (Usage, d) ∨
       cmd_fulfill admins m d = (Raised, d)))
     ∨ ∃ i, names_order m i ∧
         ((rows d !! i = None ∧ cmd_fulfill admins m d = (NotFound, d))
          ∨ ∃ row, rows d !! i = Some row ∧
              ((status row = "done" ∧
                cmd_fulfill admins m d = (AlreadyDone, d))
               ∨ (status row ≠ "done" ∧
                  cmd_fulfill admins m d =
                    (Fulfilled i (user_id row), update_status "done" i d))))).
Proof.
  unfold cmd_fulfill, names_order.
  case_bool_decide as Ha; simpl; [right; split; [done|]|by left].
  destruct (Py.isdigit (Py.strip (types.get_args m))) eqn:Hd; simpl;
    [|left; split; [by intros i [? _]|by left]].
  destruct (Py.int (Py.strip (types.get_args m))) as [i|] eqn:Hi;
    [|left; split; [by intros i [_ ?]|by right]].
  right. exists i. split; [done|].
  destruct (rows d !! i) as [row|]; [right; exists row; split; [done|]|by left].
  destruct (String.eqb_spec (status row) "done") as [E|E]; simpl; auto.
Qed.

(** [process_option] leaves the table or adds a pending order. *)
Lemma process_option_cases call now d :
  (process_option admins token call now d).2 = d ∧
    new_id (process_option admins token call now d).1 = None
  ∨ ∃ uid uname opt amt,
      process_option admins token call now d =
        (OrderPlaced (seq d + 1) admins,
         (add_order uid uname opt amt "pending" None now d).2).
Proof.
  unfold process_option.
  destruct (Py.split "_" (types.data call)) as [|? [|uc [|a ?]]]; try by left.
  destruct (Py.int a) as [amt|]; [|by left].
  destruct (Py.truthy token); [by left|].
  right. by eexists _, _, _, _.
Qed.

End HandlerCases.

(** ** The table under one operation and under a run *)

Section Table.

Variable admins : list Z.
Variable token : option string.

Lemma update_status_lookup st i d j :
  rows (update_status st i d) !! j =
    if decide (i = j) then set_status st <$> rows d !! j else rows d !! j.
Proof. unfold update_status; simpl. rewrite lookup_alter. by case_decide; subst. Qed.

Lemma add_order_lookup uid uname opt amt st nt now d j :
  db_wf d → is_Some (rows d !! j) →
  rows (add_order uid uname opt amt st nt now d).2 !! j = rows d !! j.
Proof.
  intros Hwf Hj. simpl. rewrite lookup_insert_ne; [done|].
  specialize (Hwf j Hj). lia.
Qed.

Lemma add_order_wf uid uname opt amt st nt now d :
  db_wf d → db_wf (add_order uid uname opt amt st nt now d).2.
Proof.
  intros Hwf j. simpl. rewrite lookup_insert_is_Some.
  intros [<-|[_ Hj]]; [lia|]. specialize (Hwf j Hj). lia.
Qed.

Lemma update_status_wf st i d : db_wf d → db_wf (update_status st i d).
Proof.
  intros Hwf j. rewrite update_status_lookup. simpl.
  case_decide; [rewrite fmap_is_Some|]; apply Hwf.
Qed.

(** The shape of one step: the table of [exec]. *)
Lemma exec_table o d :
  (exec admins token o d).2 = d
  ∨ (∃ uid uname opt amt st nt now,
       (exec admins token o d).2 = (add_order uid uname opt amt st nt now d).2)
  ∨ (∃ i row, rows d !! i = Some row ∧ status row = "pending" ∧
       (exec admins token o d).2 = update_status "paid_waiting" i d)
  ∨ (∃ i row, rows d !! i = Some row ∧ status row ≠ "done" ∧
       (exec admins token o d).2 = update_status "done" i d).
Proof.
  destruct o as [uid uname opt amt st nt now|call now|m|m|m pay now]; simpl.
  - right; left. by eexists _, _, _, _, _, _, _.
  - destruct (process_option_cases admins token call now d)
      as [[-> _]|(uid & uname & opt & amt & ->)]; [by left|].
    right; left. by eexists _, _, _, _, _, _, _.
  - destruct (cmd_paid_cases admins m d)
      as [[_ [->| ->]]|(i & _ & [[_ ->]|(row & Hr & [[_ ->]|[Hs ->]])])];
      try by left.
    right; right; left. by exists i, row.
  - destruct (cmd_fulfill_cases admins m d)
      as [[_ ->]|[_ [[_ [->| ->]]|(i & _ & [[_ ->]|(row & Hr & [[_ ->]|[Hs ->]])])]]];
      try by left.
    right; right; right. by exists i, row.
  - right; left. by eexists _, _, _, _, _, _, _.
Qed.

Lemma exec_wf o d : db_wf d → db_wf (exec admins token o d).2.
Proof.
  intros Hwf.
  destruct (exec_table o d)
    as [->|[(?&?&?&?&?&?&?& ->)|[(?&?&?&?& ->)|(?&?&?&?& ->)]]];
    auto using add_order_wf, update_status_wf.
Qed.

Lemma exec_seq o d : seq d <= seq (exec admins token o d).2.
Proof.
  destruct (exec_table o d)
    as [->|[(?&?&?&?&?&?&?& ->)|[(?&?&?&?& ->)|(?&?&?&?& ->)]]];
    simpl; lia.
Qed.

(** One step takes a row of the table nowhere, one place forward, or to
    done. *)
Lemma exec_row o d i row :
  db_wf d → rows d !! i = Some row →
  rows (exec admins token o d).2 !! i = Some row
  ∨ (status row = "pending" ∧
     rows (exec admins token o d).2 !! i = Some (set_status "paid_waiting" row))
  ∨ (status row ≠ "done" ∧
     rows (exec admins token o d).2 !! i = Some (set_status "done" row)).
Proof.
  intros Hwf Hi.
  destruct (exec_table o d)
    as [->|[(?&?&?&?&?&?&?& ->)|[(j&row'&Hj&Hs& ->)|(j&row'&Hj&Hs& ->)]]].
  - by left.
  - left. by rewrite add_order_lookup.
  - rewrite update_status_lookup. case_decide as E; [subst j|by left].
    right; left. rewrite Hi in Hj |- *. by simplify_eq.
  - rewrite update_status_lookup. case_decide as E; [subst j|by left].
    right; right. rewrite Hi in Hj |- *. by simplify_eq.
Qed.

Lemma run_cons o ops d :
  run admins token (o :: ops) d =
    ((exec admins token o d).1 :: (run admins token ops (exec admins token o d).2).1,
     (run admins token ops (exec admins token o d).2).2).
Proof.
  simpl. destruct (exec admins token o d) as [r d1]; simpl.
  by destruct (run admins token ops d1).
Qed.

Lemma run_wf ops : ∀ d, db_wf d → db_wf (run admins token ops d).2.
Proof.
  induction ops as [|o ops IH]; intros d Hwf; [done|].
  rewrite run_cons; simpl. by apply IH, exec_wf.
Qed.

Lemma run_seq ops : ∀ d, seq d <= seq (run admins token ops d).2.
Proof.
  induction ops as [|o ops IH]; intros d; [simpl; lia|].
  rewrite run_cons; simpl. etrans; [apply exec_seq|apply IH].
Qed.

End Table.

(** ** Rows along a run *)

Section Rows.

Variable admins : list Z.
Variable token : option string.

Lemma empty_db_wf : db_wf empty_db.
Proof. intros i [? H]. simpl in H. by rewrite lookup_empty in H. Qed.





(** A row that is done stays as it is. *)
Lemma run_done_fixed ops : ∀ d i row,
  db_wf d → rows d !! i = Some row → status row = "done" →
  rows (run admins token ops d).2 !! i = Some row.
Proof.
  induction ops as [|o ops IH]; intros d i row Hwf Hi Hs; [done|].
  rewrite run_cons; simpl. apply IH; [by apply exec_wf| |done].
  destruct (exec_row admins token o d i row Hwf Hi) as [H|[[E _]|[E _]]];
    [done|congruence|congruence].
Qed.


(** A run keeps every row of the table, with every column but [status]. *)
Lemma run_row_kept ops : ∀ d i row,
  db_wf d → rows d !! i = Some row →
  ∃ row', rows (run admins token ops d).2 !! i = Some row' ∧
          same_but_status row row'.
Proof.
  induction ops as [|o ops IH]; intros d i row Hwf Hi.
  - by exists row.
  - rewrite run_cons; simpl.
    pose proof (exec_wf admins token o d Hwf) as Hwf'.
    destruct (exec_row admins token o d i row Hwf Hi) as [H|[[_ H]|[_ H]]];
      destruct (IH _ i _ Hwf' H) as (row' & Hr & Hsame);
      exists row'; (split; [done|]); apply Hsame.
Qed.

(** What [exec] reports as a new id is the next value of the counter, and
    the row is in the table. *)
Lemma exec_new_id o d i :
  new_id (exec admins token o d).1 = Some i →
  i = seq d + 1 ∧ seq (exec admins token o d).2 = i ∧
  is_Some (rows (exec admins token o d).2 !! i).
Proof.
  destruct o as [uid uname opt amt st nt now|call now|m|m|m pay now]; simpl.
  - intros [= <-]. rewrite lookup_insert_eq. eauto.
  - destruct (process_option_cases admins token call now d)
      as [[_ ->]|(uid & uname & opt & amt & ->)]; [done|].
    simpl. intros [= <-]. rewrite lookup_insert_eq. eauto.
  - destruct (cmd_paid_cases admins m d)
      as [[_ [->| ->]]|(j & _ & [[_ ->]|(row & Hr & [[_ ->]|[Hs ->]])])]; done.
  - destruct (cmd_fulfill_cases admins m d)
      as [[_ ->]|[_ [[_ [->| ->]]|(j & _ & [[_ ->]|(row & Hr & [[_ ->]|[Hs ->]])])]]];
      done.
  - intros [= <-]. rewrite lookup_insert_eq. eauto.
Qed.

Lemma run_new_ids ops : ∀ d i,
  db_wf d → i ∈ omap new_id (run admins token ops d).1 →
  seq d < i ∧ i <= seq (run admins token ops d).2 ∧
  is_Some (rows (run admins token ops d).2 !! i).
Proof.
  induction ops as [|o ops IH]; intros d i Hwf; [by intros ?%elem_of_nil|].
  rewrite run_cons; simpl.
  pose proof (exec_wf admins token o d Hwf) as Hwf'.
  pose proof (exec_seq admins token o d) as Hseq.
  destruct (new_id (exec admins token o d).1) as [j|] eqn:E.
  - destruct (exec_new_id o d j E) as (-> & Hs & [row Hj]).
    intros [->|Hin]%elem_of_cons.
    + pose proof (run_seq admins token ops (exec admins token o d).2).
      split_and!; [lia|lia|].
      destruct (run_row_kept ops _ _ _ Hwf' Hj) as (row' & -> & _). by eexists.
    + destruct (IH _ i Hwf' Hin) as (? & ? & ?). split_and!; [lia|done|done].
  - intros Hin. destruct (IH _ i Hwf' Hin) as (? & ? & ?).
    split_and!; [lia|done|done].
Qed.

(** The handlers write statuses of the path only. *)
Lemma exec_statuses o d :
  by_handler o = true → statuses_on_path d →
  statuses_on_path (exec admins token o d).2.
Proof.
  intros Ho Hd i row.
  destruct o as [uid uname opt amt st nt now|call now|m|m|m pay now];
    [done| | | |]; unfold exec.
  - destruct (process_option_cases admins token call now d)
      as [[-> _]|(uid & uname & opt & amt & ->)]; [apply Hd|].
    simpl. intros [[_ <-]|[_ Hr]]%lookup_insert_Some; [by eexists|by eapply Hd].
  - destruct (cmd_paid_cases admins m d)
      as [[_ [->| ->]]|(j & _ & [[_ ->]|(r0 & Hr & [[_ ->]|[Hs ->]])])];
      try apply Hd.
    cbn [snd]. rewrite update_status_lookup. case_decide; [|apply Hd].
    intros (? & _ & ->)%fmap_Some. by eexists.
  - destruct (cmd_fulfill_cases admins m d)
      as [[_ ->]|[_ [[_ [->| ->]]|(j & _ & [[_ ->]|(r0 & Hr & [[_ ->]|[Hs ->]])])]]];
      try apply Hd.
    cbn [snd]. rewrite update_status_lookup. case_decide; [|apply Hd].
    intros (? & _ & ->)%fmap_Some. by eexists.
  - simpl. intros [[_ <-]|[_ Hr]]%lookup_insert_Some; [by eexists|by eapply Hd].
Qed.

(** So every table the bot reaches from the empty one has them only. *)
Lemma run_statuses ops : ∀ d,
  Forall (λ o, by_handler o = true) ops → statuses_on_path d →
  statuses_on_path (run admins token ops d).2.
Proof.
  induction ops as [|o ops IH]; intros d Hall Hd; [done|].
  apply Forall_cons in Hall as [Ho Hall].
  rewrite run_cons; simpl. by apply IH, exec_statuses.
Qed.

Lemma empty_db_statuses : statuses_on_path empty_db.
Proof. intros i row H. simpl in H. by rewrite lookup_empty in H. Qed.

End Rows.

(** * The claims *)

Lemma sample_db_wf : db_wf sample_db.
Proof. apply run_wf, empty_db_wf. Qed.

(** ** The life of an order, run on the sample table *)

Example order_placed_pending :
  (process_option [9] None (presses alice "opt_100_100") 10 empty_db).1 =
    OrderPlaced 1 [9] ∧
  rows sample_db !! 1 = Some order_1.
Proof. by vm_compute. Qed.

Example report_then_fulfill :
  (run [9] None [CmdPaid (says alice "1"); CmdPaid (says alice "1");
                 CmdFulfill (says bob "1"); CmdFulfill (says root "1");
                 CmdFulfill (says root "1"); CmdPaid (says alice "1");
                 CmdPaid (says alice "7"); CmdPaid (says alice "one")]
       sample_db).1 =
    [PaymentReported 1 [9]; InvalidState "paid_waiting"; Unauthorized;
     Fulfilled 1 5; AlreadyDone; InvalidState "done"; NotFound; Usage].
Proof. by vm_compute. Qed.

Example sample_ids :
  omap new_id (run [9] None sample_ops empty_db).1 = [1; 2; 3] ∧
  omap new_id (run [9] None sample_calls sample_db).1 = [4; 5].
Proof. by vm_compute. Qed.

Example sample_listing :
  my_orders (says alice "") sample_db =
    Orders [(2, "pay_500_5", 400, "done", 20); (1, "100 UC", 100, "pending", 10)] ∧
  my_orders (says root "") sample_db = NoOrders.
Proof. by vm_compute. Qed.

(** A superscript two passes [isdigit] and is no literal for [int]: as an
    entry of the configuration it stops the list from being read, as the
    argument of /paid it makes the handler raise.  So does a separator
    0x1c around an entry, which [strip] removes and [int] does not skip. *)
Example digit_that_int_rejects :
  parse_admin_ids (String "178" "") = None ∧
  parse_admin_ids (String "028" "5") = None ∧
  cmd_paid [9] (says alice (String "178" "")) sample_db = (Raised, sample_db).
Proof. by vm_compute. Qed.

(** ** C1: the status of an order only moves forward *)



(** ** C4: a direct payment is recorded as done *)

(** C4.  [got_payment] adds one order under an id the table did not hold
    before, with the sender, payload and amount of the payment and with
    status done; and after any run of further operations that row is still
    exactly the same, so it is never seen pending or paid_waiting. *)
Theorem direct_payment_is_done admins token m pay now d ops :
  db_wf d →
  ∃ i row,
    (got_payment admins m pay now d).1 = PaymentRecorded i admins ∧
    rows d !! i = None ∧
    rows (got_payment admins m pay now d).2 !! i = Some row ∧
    status row = "done" ∧
    user_id row = types.id (types.from_user m) ∧
    package row = types.invoice_payload pay ∧
    amount row = types.total_amount pay ∧
    rows (run admins token ops (got_payment admins m pay now d).2).2 !! i = Some row.
Proof.
  intros Hwf. eexists (seq d + 1), _. simpl.
  split_and!; [done| |apply lookup_insert_eq|done|done|done|done|].
  - destruct (rows d !! (seq d + 1)) eqn:E; [|done].
    specialize (Hwf (seq d + 1)). rewrite E in Hwf.
    assert (seq d + 1 <= seq d) by (apply Hwf; by eexists). lia.
  - apply run_done_fixed; [|apply lookup_insert_eq|done].
    apply (add_order_wf _ _ _ _ "done" None now d Hwf).
Qed.

Lemma direct_payment_is_done_witness :
  ∃ i row,
    (got_payment [9] (says bob "") paid_500 40 sample_db).1 = PaymentRecorded i [9] ∧
    rows sample_db !! i = None ∧
    rows (got_payment [9] (says bob "") paid_500 40 sample_db).2 !! i = Some row ∧
    status row = "done" ∧
    user_id row = types.id (types.from_user (says bob "")) ∧
    package row = types.invoice_payload paid_500 ∧
    amount row = types.total_amount paid_500 ∧
    rows (run [9] None [CmdPaid (says bob "4"); CmdFulfill (says root "4")]
              (got_payment [9] (says bob "") paid_500 40 sample_db).2).2 !! i = Some row.
Proof.
  apply (direct_payment_is_done [9] None (says bob "") paid_500 40 sample_db).
  exact sample_db_wf.
Defined.

(** ** C5: ids are handed out in increasing order *)

(** C5.  In any run, the ids reported by the creating operations (direct calls
    of [add_order] and the two handlers that call it) are strictly increasing
    in the order of the calls; each of them is above the counter and free in
    the table the run started from, and names a row of the table the run
    leaves.  Every direct call of [add_order] reports an id. *)
Theorem order_ids_increase admins token ops d :
  db_wf d →
  StronglySorted Z.lt (omap new_id (run admins token ops d).1) ∧
  (∀ i, i ∈ omap new_id (run admins token ops d).1 →
     seq d < i ∧ rows d !! i = None ∧
     is_Some (rows (run admins token ops d).2 !! i)) ∧
  (Forall (λ o, by_handler o = false) ops →
     length (omap new_id (run admins token ops d).1) = length ops).
Proof.
  intros Hwf. split_and!.
  - revert d Hwf. induction ops as [|o ops IH]; intros d Hwf; [constructor|].
    rewrite run_cons; simpl.
    pose proof (exec_wf admins token o d Hwf) as Hwf'.
    destruct (new_id (exec admins token o d).1) as [j|] eqn:E; [|by apply IH].
    constructor; [by apply IH|].
    apply Forall_forall. intros i Hin.
    destruct (exec_new_id admins token o d j E) as (_ & Hs & _).
    destruct (run_new_ids admins token ops _ i Hwf' Hin) as (? & _). lia.
  - intros i Hin.
    destruct (run_new_ids admins token ops d i Hwf Hin) as (Hlt & _ & Hin').
    split_and!; [done| |done].
    destruct (rows d !! i) eqn:E; [|done].
    assert (i <= seq d) by (apply Hwf; by eexists). lia.
  - clear Hwf. revert d. induction ops as [|o ops IH]; intros d Hall; [done|].
    apply Forall_cons in Hall as [Ho Hall].
    rewrite run_cons; simpl.
    destruct o; try done. simpl. f_equal. by apply IH.
Qed.

Lemma order_ids_increase_witness :
  StronglySorted Z.lt (omap new_id (run [9] None sample_calls sample_db).1) ∧
  (∀ i, i ∈ omap new_id (run [9] None sample_calls sample_db).1 →
     seq sample_db < i ∧ rows sample_db !! i = None ∧
     is_Some (rows (run [9] None sample_calls sample_db).2 !! i)) ∧
  (Forall (λ o, by_handler o = false) sample_calls →
     length (omap new_id (run [9] None sample_calls sample_db).1) =
       length sample_calls).
Proof. apply (order_ids_increase [9] None sample_calls sample_db), sample_db_wf. Defined.

(** ** C2: the replies of fulfill *)


(** ** C3: the replies of report_payment *)



(** ** C7: an error reply leaves the table alone *)

(** C7.  When [cmd_paid] or [cmd_fulfill] answers with an error (NotFound,
    InvalidState, Unauthorized, AlreadyDone, or the usage message), the table
    it returns is the table it was given. *)
Theorem errors_change_nothing admins m d :
  (is_error (cmd_paid admins m d).1 = true → (cmd_paid admins m d).2 = d) ∧
  (is_error (cmd_fulfill admins m d).1 = true → (cmd_fulfill admins m d).2 = d).
Proof.
  split.
  - destruct (cmd_paid_cases admins m d)
      as [[_ [->| ->]]|(i & _ & [[_ ->]|(row & Hr & [[_ ->]|[Hs ->]])])]; done.
  - destruct (cmd_fulfill_cases admins m d)
      as [[_ ->]|[_ [[_ [->| ->]]|(i & _ & [[_ ->]|(row & Hr & [[_ ->]|[Hs ->]])])]]];
      done.
Qed.

(** ** C8: a success changes one status and nothing else *)

Lemma update_status_only st i d row :
  rows d !! i = Some row → only_status_changed i d (update_status st i d).
Proof.
  intros Hr. split_and!; [done| |].
  - intros j Hj. rewrite update_status_lookup, decide_False; done.
  - exists row, (set_status st row). split_and!; [done| |done].
    rewrite update_status_lookup, decide_True, Hr by done. done.
Qed.

(** C8.  When [cmd_paid] answers that the payment was reported for order [i],
    or [cmd_fulfill] that order [i] was fulfilled, the message names order
    [i], and the table returned differs from the one given in the status of
    row [i] only: the counter, every other row, and the columns user_id,
    username, option, amount, created_at and note of row [i] (whose key is
    still [i]) are as before. *)
Theorem success_changes_status_only admins m d i :
  (∀ ns, (cmd_paid admins m d).1 = PaymentReported i ns →
     names_order m i ∧ only_status_changed i d (cmd_paid admins m d).2) ∧
  (∀ u, (cmd_fulfill admins m d).1 = Fulfilled i u →
     names_order m i ∧ only_status_changed i d (cmd_fulfill admins m d).2).
Proof.
  split.
  - intros ns.
    destruct (cmd_paid_cases admins m d)
      as [[_ [->| ->]]|(j & Hm & [[_ ->]|(row & Hr & [[_ ->]|[Hs ->]])])]; try done.
    simpl. intros [= <- _]. split; [done|]. by eapply update_status_only.
  - intros u.
    destruct (cmd_fulfill_cases admins m d)
      as [[_ ->]|[_ [[_ [->| ->]]|(j & Hm & [[_ ->]|(row & Hr & [[_ ->]|[Hs ->]])])]]];
      try done.
    simpl. intros [= <- _]. split; [done|]. by eapply update_status_only.
Qed.

(** ** C9: report_payment does not look at the sender *)


(** ** C6: the orders of one user, newest first *)

Section Listing.

Global Instance id_desc_trans : Transitive id_desc.
Proof. intros a b c. unfold id_desc. lia. Qed.

Global Instance id_desc_total : Total id_desc.
Proof. intros a b. unfold id_desc. lia. Qed.

Lemma select_by_user_elem uid d i row :
  (i, row) ∈ select_by_user uid d ↔ rows d !! i = Some row ∧ user_id row = uid.
Proof.
  unfold select_by_user. rewrite merge_sort_Permutation.
  rewrite list_elem_of_filter, elem_of_map_to_list. simpl. tauto.
Qed.

Lemma select_by_user_keys uid d : NoDup ((select_by_user uid d).*1).
Proof.
  unfold select_by_user. rewrite merge_sort_Permutation.
  eapply sublist_NoDup; [apply (NoDup_fst_map_to_list (rows d))|].
  apply fmap_sublist, sublist_filter.
Qed.

Lemma desc_strict (l : list (Z * order)) :
  StronglySorted id_desc l → NoDup (l.*1) →
  StronglySorted (λ a b, a.1 > b.1) l.
Proof.
  induction 1 as [|a l Hl IH Ha]; intros Hnd; [constructor|].
  simpl in Hnd. apply NoDup_cons in Hnd as [Hnotin Hnd].
  constructor; [by apply IH|].
  rewrite Forall_forall in Ha |- *. intros b Hb.
  specialize (Ha b Hb). unfold id_desc in Ha.
  assert (a.1 ≠ b.1).
  { intros E. apply Hnotin. rewrite E. by apply list_elem_of_fmap_2. }
  lia.
Qed.

Lemma select_by_user_sorted uid d :
  StronglySorted (λ a b, a.1 > b.1) (select_by_user uid d).
Proof.
  apply desc_strict; [|apply select_by_user_keys].
  unfold select_by_user. apply StronglySorted_merge_sort; apply _.
Qed.

End Listing.


(** ** C10: the allow-list read from the environment *)

Section AdminIds.







End AdminIds.



(** * Further properties *)

(** ** Numerals: what the bot writes, it reads back *)

Section Numerals.

Lemma digit_char_code k :
  0 <= k < 10 → Py.code (Ascii.ascii_of_N (Z.to_N (48 + k))) = 48 + k.
Proof.
  intros Hk. unfold Py.code. rewrite Ascii.N_ascii_embedding by lia. lia.
Qed.

Lemma digit_char_decimal k :
  0 <= k < 10 →
  Py.isdecimal_char (Ascii.ascii_of_N (Z.to_N (48 + k))) = true.
Proof.
  intros Hk. unfold Py.isdecimal_char. rewrite digit_char_code by done.
  apply andb_true_iff. split; apply Z.leb_le; lia.
Qed.

Lemma str_digits_decimal f : ∀ n acc,
  Py.all_chars Py.isdecimal_char acc = true →
  Py.all_chars Py.isdecimal_char (PyText.str_digits f n acc) = true.
Proof.
  assert (Hstep : ∀ n acc, Py.all_chars Py.isdecimal_char acc = true →
    Py.all_chars Py.isdecimal_char
      (String (Ascii.ascii_of_N (Z.to_N (48 + n mod 10))) acc) = true).
  { intros n acc Hacc. simpl. rewrite digit_char_decimal, Hacc; [done|].
    apply Z.mod_pos_bound. lia. }
  induction f as [|f IH]; intros n acc Hacc; simpl; [by apply Hstep|].
  destruct (n <? 10); [by apply Hstep|]. by apply IH, Hstep.
Qed.

Lemma str_digits_nonempty f n acc : PyText.str_digits f n acc ≠ EmptyString.
Proof.
  revert n acc. induction f as [|f IH]; intros n acc; simpl; [done|].
  destruct (n <? 10); [done|apply IH].
Qed.

(** Reading the digits written for [n] appends them to the number read so
    far. *)
Lemma str_digits_value f : ∀ n acc,
  0 <= n < 2 * 2 ^ Z.of_nat f →
  ∃ k, 0 <= k ∧ ∀ a prev,
    Py.digits (PyText.str_digits f n acc) a prev =
      Py.digits acc (a * 10 ^ (k + 1) + n) true.
Proof.
  assert (Hone : ∀ n acc a prev, 0 <= n < 10 →
    Py.digits (String (Ascii.ascii_of_N (Z.to_N (48 + n mod 10))) acc) a prev =
      Py.digits acc (a * 10 ^ (0 + 1) + n) true).
  { intros n acc a prev Hn. simpl Py.digits.
    rewrite Z.mod_small by lia. rewrite digit_char_decimal by lia.
    unfold Py.digit_val. rewrite digit_char_code by lia.
    f_equal. lia. }
  induction f as [|f IH]; intros n acc Hn.
  - exists 0. split; [done|]. intros a prev. simpl PyText.str_digits.
    apply Hone. simpl in Hn. lia.
  - simpl PyText.str_digits. destruct (Z.ltb_spec n 10) as [Hlt|Hge].
    + exists 0. split; [done|]. intros a prev. apply Hone. lia.
    + destruct (IH (n / 10)
                   (String (Ascii.ascii_of_N (Z.to_N (48 + n mod 10))) acc))
        as (k & Hk & Hd).
      { rewrite Nat2Z.inj_succ, Z.pow_succ_r in Hn by lia.
        split; [apply Z.div_pos; lia|].
        apply Z.div_lt_upper_bound; lia. }
      exists (k + 1). split; [lia|]. intros a prev. rewrite Hd.
      simpl Py.digits.
      pose proof (Z.mod_pos_bound n 10 ltac:(lia)) as Hm.
      rewrite digit_char_decimal by done.
      unfold Py.digit_val. rewrite digit_char_code by done.
      f_equal. rewrite (Z.pow_add_r 10 (k + 1) 1) by lia.
      pose proof (Z.div_mod n 10 ltac:(lia)). lia.
Qed.

Lemma log2_fuel n : 0 <= n → n < 2 * 2 ^ Z.of_nat (Z.to_nat (Z.log2 n)).
Proof.
  intros Hn. rewrite Z2Nat.id by apply Z.log2_nonneg.
  destruct (Z.eq_dec n 0) as [->|Hne]; [done|].
  pose proof (Z.log2_spec n ltac:(lia)) as [_ H].
  rewrite Z.pow_succ_r in H by apply Z.log2_nonneg. done.
Qed.

(** The numeral of a natural number: digits only, and [int] reads it. *)
Lemma str_nat s n :
  0 <= n → s = PyText.str n →
  s ≠ EmptyString ∧ Py.all_chars Py.isdecimal_char s = true ∧
  Py.digits s 0 false = Some n.
Proof.
  intros Hn ->. unfold PyText.str.
  destruct (Z.ltb_spec n 0) as [?|_]; [lia|].
  split_and!; [apply str_digits_nonempty|by apply str_digits_decimal|].
  destruct (str_digits_value (Z.to_nat (Z.log2 n)) n EmptyString) as (k & _ & Hd).
  { split; [done|by apply log2_fuel]. }
  rewrite Hd. simpl. f_equal; lia.
Qed.

Lemma int_str_nat n : 0 <= n → Py.int (PyText.str n) = Some n.
Proof.
  intros Hpos. destruct (str_nat _ n Hpos eq_refl) as (Hne & Hdec & Hd).
  destruct (int_decimal _ Hne Hdec) as (m & Hm & _).
  rewrite Hm. f_equal.
  unfold Py.int in Hm.
  rewrite (strip_by_none _ _ _ decimal_not_int_space Hdec) in Hm.
  destruct (PyText.str n) as [|c r] eqn:E; [done|].
  assert (Hc : Py.isdecimal_char c = true)
    by (simpl in Hdec; by apply andb_true_iff in Hdec as [? _]).
  rewrite (decimal_not_char c "+" Hc), (decimal_not_char c "-" Hc) in Hm by done.
  congruence.
Qed.

Lemma isdigit_str_nat n : 0 <= n → Py.isdigit (PyText.str n) = true.
Proof.
  intros Hn. destruct (str_nat _ n Hn eq_refl) as (Hne & Hdec & _).
  by apply decimal_isdigit.
Qed.

(** A command whose argument is the numeral of [i] names order [i]. *)
Lemma str_names_order u i : 0 <= i → names_order (says u (PyText.str i)) i.
Proof.
  intros Hi. unfold names_order, says; simpl.
  rewrite (strip_isdigit _ (isdigit_str_nat i Hi)).
  split; [by apply isdigit_str_nat|by apply int_str_nat].
Qed.



End Numerals.


(** ** One order from the button to the delivery *)

Section Lifecycle.

Variable admins : list Z.
Variable token : option string.

(** [cmd_paid] on a message that names a row of the table. *)
Lemma cmd_paid_on m d i row :
  names_order m i → rows d !! i = Some row →
  cmd_paid admins m d =
    if String.eqb (status row) "pending"
    then (PaymentReported i admins, update_status "paid_waiting" i d)
    else (InvalidState (status row), d).
Proof.
  intros [Hd Hi] Hr. unfold cmd_paid. rewrite Hd, Hi. simpl. rewrite Hr.
  by destruct (String.eqb (status row) "pending").
Qed.

(** [cmd_fulfill] by an administrator on a message that names a row. *)
Lemma cmd_fulfill_on m d i row :
  types.id (types.from_user m) ∈ admins →
  names_order m i → rows d !! i = Some row →
  cmd_fulfill admins m d =
    if String.eqb (status row) "done" then (AlreadyDone, d)
    else (Fulfilled i (user_id row), update_status "done" i d).
Proof.
  intros Ha [Hd Hi] Hr. unfold cmd_fulfill.
  rewrite bool_decide_eq_true_2 by done. simpl. rewrite Hd, Hi. simpl.
  by rewrite Hr.
Qed.

(** What [process_option] stores when it places an order. *)
Lemma process_option_placed call now d i ns d1 :
  process_option admins token call now d = (OrderPlaced i ns, d1) →
  i = seq d + 1 ∧ ns = admins ∧ Py.truthy token = false ∧
  ∃ row, rows d1 !! i = Some row ∧ status row = "pending" ∧
         user_id row = types.id (types.cb_from_user call) ∧
         created_at row = now ∧ note row = None ∧
         seq d1 = i ∧ ∀ j, j ≠ i → rows d1 !! j = rows d !! j.
Proof.
  unfold process_option.
  destruct (Py.split "_" (types.data call)) as [|? [|uc [|a ?]]]; try done.
  destruct (Py.int a) as [amt|]; [|done].
  destruct (Py.truthy token); [done|].
  simpl. intros [= <- <- <-]. split_and!; try done.
  eexists. split; [apply lookup_insert_eq|]. simpl. split_and!; try done.
  intros j Hj. by rewrite lookup_insert_ne.
Qed.

End Lifecycle.

(** X2.  An order placed by hand can be taken to the end with the id the bot
    printed: if [process_option] answers that order [i] was placed, then
    /paid with the numeral of [i], from any sender, reports the payment;
    /fulfill with the numeral of [i], from an administrator, fulfils the order
    and notifies the user who pressed the button; a second /fulfill is
    answered AlreadyDone and a late /paid InvalidState. *)
Theorem printed_id_lifecycle admins token call now d i d1 reporter fulfiller :
  0 <= seq d →
  process_option admins token call now d = (OrderPlaced i admins, d1) →
  types.id fulfiller ∈ admins →
  run admins token
      [CmdPaid (says reporter (PyText.str i));
       CmdFulfill (says fulfiller (PyText.str i));
       CmdFulfill (says fulfiller (PyText.str i));
       CmdPaid (says reporter (PyText.str i))] d1 =
    ([PaymentReported i admins;
      Fulfilled i (types.id (types.cb_from_user call));
      AlreadyDone; InvalidState "done"],
     update_status "done" i (update_status "paid_waiting" i d1)).
Proof.
  intros Hseq Hp Ha.
  destruct (process_option_placed admins token call now d i admins d1 Hp)
    as (-> & _ & _ & row & Hr & Hs & Hu & _).
  assert (Hi : 0 <= seq d + 1) by lia.
  pose proof (str_names_order reporter _ Hi) as Hrep.
  pose proof (str_names_order fulfiller _ Hi) as Hful.
  set (i := seq d + 1) in *.
  set (d2 := update_status "paid_waiting" i d1).
  set (d3 := update_status "done" i d2).
  assert (Hr2 : rows d2 !! i = Some (set_status "paid_waiting" row)).
  { unfold d2. rewrite update_status_lookup, decide_True, Hr by done. done. }
  assert (Hr3 : rows d3 !! i = Some (set_status "done" (set_status "paid_waiting" row))).
  { unfold d3. rewrite update_status_lookup, decide_True, Hr2 by done. done. }
  assert (E1 : cmd_paid admins (says reporter (PyText.str i)) d1 =
               (PaymentReported i admins, d2)).
  { by rewrite (cmd_paid_on admins _ d1 i row Hrep Hr), Hs. }
  assert (E2 : cmd_fulfill admins (says fulfiller (PyText.str i)) d2 =
               (Fulfilled i (user_id row), d3)).
  { by rewrite (cmd_fulfill_on admins (says fulfiller (PyText.str i)) d2 i _
                  Ha Hful Hr2). }
  assert (E3 : cmd_fulfill admins (says fulfiller (PyText.str i)) d3 =
               (AlreadyDone, d3)).
  { by rewrite (cmd_fulfill_on admins (says fulfiller (PyText.str i)) d3 i _
                  Ha Hful Hr3). }
  assert (E4 : cmd_paid admins (says reporter (PyText.str i)) d3 =
               (InvalidState "done", d3)).
  { by rewrite (cmd_paid_on admins _ d3 i _ Hrep Hr3). }
  unfold run, exec. rewrite E1. cbv beta iota zeta.
  rewrite E2. cbv beta iota zeta. rewrite E3. cbv beta iota zeta.
  rewrite E4. cbv beta iota zeta. by rewrite Hu.
Qed.

Lemma printed_id_lifecycle_witness :
  run [9] None
      [CmdPaid (says bob (PyText.str 4));
       CmdFulfill (says root (PyText.str 4));
       CmdFulfill (says root (PyText.str 4));
       CmdPaid (says bob (PyText.str 4))]
      (process_option [9] None (presses alice "opt_100_100") 60 sample_db).2 =
    ([PaymentReported 4 [9];
      Fulfilled 4 (types.id (types.cb_from_user (presses alice "opt_100_100")));
      AlreadyDone; InvalidState "done"],
     update_status "done" 4
       (update_status "paid_waiting" 4
          (process_option [9] None (presses alice "opt_100_100") 60 sample_db).2)).
Proof.
  apply (printed_id_lifecycle [9] None (presses alice "opt_100_100") 60
           sample_db 4 _ bob root).
  - vm_compute. discriminate.
  - vm_compute. reflexivity.
  - vm_compute. apply list_elem_of_here.
Defined.

(** X3.  The user notified of a delivery is the one who placed the order,
    whatever happened in between and whoever reported the payment: if
    [process_option] placed order [i], then after any run of operations a
    [cmd_fulfill] that fulfils order [i] addresses its notification to the
    sender of that button press. *)
Theorem fulfill_notifies_requester admins token call now d i d1 ops m u :
  db_wf d →
  process_option admins token call now d = (OrderPlaced i admins, d1) →
  (cmd_fulfill admins m (run admins token ops d1).2).1 = Fulfilled i u →
  u = types.id (types.cb_from_user call).
Proof.
  intros Hwf Hp Hf.
  destruct (process_option_placed admins token call now d i admins d1 Hp)
    as (_ & _ & _ & row & Hr & _ & Hu & _).
  assert (Hwf1 : db_wf d1).
  { pose proof (exec_wf admins token (ProcessOption call now) d Hwf) as H.
    simpl in H. by rewrite Hp in H. }
  destruct (run_row_kept admins token ops d1 i row Hwf1 Hr)
    as (row' & Hr' & Hsame).
  destruct (cmd_fulfill_cases admins m (run admins token ops d1).2)
    as [[_ E]|[_ [[_ [E|E]]|(j & _ & [[_ E]|(r0 & Hr0 & [[_ E]|[_ E]])])]]];
    rewrite E in Hf; try done.
  simpl in Hf. injection Hf as -> <-.
  assert (r0 = row') as -> by congruence.
  destruct Hsame as (-> & _). done.
Qed.

Lemma fulfill_notifies_requester_witness :
  5 = types.id (types.cb_from_user (presses alice "opt_100_100")).
Proof.
  apply (fulfill_notifies_requester [9] None (presses alice "opt_100_100") 60
           sample_db 4 (process_option [9] None (presses alice "opt_100_100")
                                       60 sample_db).2
           [CmdPaid (says bob "4")] (says root "4") 5).
  - exact sample_db_wf.
  - vm_compute. reflexivity.
  - vm_compute. reflexivity.
Defined.

(** ** The table over a whole run *)

(** X4.  No operation deletes an order or rewrites anything but its status:
    after any run, every row of the starting table is still there under the
    same id, with the same user_id, username, option, amount, created_at and
    note. *)
Theorem rows_are_kept admins token ops d i row :
  db_wf d → rows d !! i = Some row →
  ∃ row', rows (run admins token ops d).2 !! i = Some row' ∧
          same_but_status row row'.
Proof. apply run_row_kept. Qed.

Lemma rows_are_kept_witness :
  ∃ row', rows (run [9] None
                    [CmdPaid (says bob "1"); GotPayment (says bob "") paid_500 70;
                     CmdFulfill (says root "1")] sample_db).2 !! 1 = Some row' ∧
          same_but_status order_1 row'.
Proof.
  apply (rows_are_kept [9] None _ sample_db 1 order_1).
  - exact sample_db_wf.
  - vm_compute. reflexivity.
Defined.

Section Dense.

Variable admins : list Z.
Variable token : option string.

(** The counter moves by one exactly when a new id is reported. *)
Lemma exec_seq_new_id o d :
  seq (exec admins token o d).2 =
    seq d + match new_id (exec admins token o d).1 with
            | Some _ => 1
            | None => 0
            end.
Proof.
  destruct o as [uid uname opt amt st nt now|call now|m|m|m pay now]; simpl.
  - done.
  - destruct (process_option_cases admins token call now d)
      as [[E ->]|(uid & uname & opt & amt & ->)]; [rewrite E; lia|done].
  - destruct (cmd_paid_cases admins m d)
      as [[_ [->| ->]]|(i & _ & [[_ ->]|(row & Hr & [[_ ->]|[Hs ->]])])];
      simpl; lia.
  - destruct (cmd_fulfill_cases admins m d)
      as [[_ ->]|[_ [[_ [->| ->]]|(i & _ & [[_ ->]|(row & Hr & [[_ ->]|[Hs ->]])])]]];
      simpl; lia.
  - done.
Qed.

Lemma exec_dense o d : db_dense d → db_dense (exec admins token o d).2.
Proof.
  intros [Hs Hd].
  destruct (exec_table admins token o d)
    as [->|[(?&?&?&?&?&?&?& ->)|[(j&?&?&?& ->)|(j&?&?&?& ->)]]].
  - done.
  - split; [simpl; lia|]. intros i. simpl.
    rewrite lookup_insert_is_Some, Hd. split.
    + intros [<-|[_ ?]]; lia.
    + intros Hi. destruct (decide (seq d + 1 = i)); [by left|].
      right. split; [done|lia].
  - split; [done|]. intros i. rewrite update_status_lookup. simpl.
    case_decide; [rewrite fmap_is_Some|]; apply Hd.
  - split; [done|]. intros i. rewrite update_status_lookup. simpl.
    case_decide; [rewrite fmap_is_Some|]; apply Hd.
Qed.

Lemma run_dense ops : ∀ d,
  db_dense d →
  db_dense (run admins token ops d).2 ∧
  omap new_id (run admins token ops d).1 =
    seqZ (seq d + 1) (seq (run admins token ops d).2 - seq d).
Proof.
  induction ops as [|o ops IH]; intros d Hd.
  - split; [done|]. simpl. by rewrite seqZ_nil by lia.
  - rewrite run_cons. cbn [fst snd].
    destruct (IH _ (exec_dense o d Hd)) as [Hd' Hids].
    split; [done|].
    pose proof (exec_seq_new_id o d) as Hs.
    pose proof (run_seq admins token ops (exec admins token o d).2) as Hle.
    destruct (new_id (exec admins token o d).1) as [j|] eqn:E.
    + destruct (exec_new_id admins token o d j E) as (-> & _ & _).
      rewrite (seqZ_cons (seq d + 1)) by lia.
      simpl. rewrite E. f_equal. etrans; [exact Hids|].
      rewrite Hs. f_equal; lia.
    + simpl. rewrite E. etrans; [exact Hids|]. rewrite Hs. f_equal; lia.
Qed.

Lemma empty_db_dense : db_dense empty_db.
Proof.
  split; [done|]. intros i. simpl. rewrite lookup_empty. split.
  - by intros [? ?].
  - lia.
Qed.

(** With a provider token the handlers add done rows only and change no
    status. *)
Lemma exec_all_done o d :
  Py.truthy token = true → by_handler o = true → all_done d →
  all_done (exec admins token o d).2 ∧ by_hand (exec admins token o d).1 = false.
Proof.
  intros Ht Ho Hd.
  destruct o as [uid uname opt amt st nt now|call now|m|m|m pay now];
    [done| | | |]; unfold exec.
  - unfold process_option.
    destruct (Py.split "_" (types.data call)) as [|? [|uc [|a ?]]]; try done.
    destruct (Py.int a); [|done]. by rewrite Ht.
  - destruct (cmd_paid_cases admins m d)
      as [[_ [->| ->]]|(i & _ & [[_ ->]|(row & Hr & [[_ ->]|[Hs ->]])])];
      try done.
    rewrite (Hd i row Hr) in Hs. done.
  - destruct (cmd_fulfill_cases admins m d)
      as [[_ ->]|[_ [[_ [->| ->]]|(i & _ & [[_ ->]|(row & Hr & [[_ ->]|[Hs ->]])])]]];
      try done.
    destruct Hs. by apply (Hd i row).
  - split; [|done]. intros i row. simpl.
    intros [[_ <-]|[_ Hr]]%lookup_insert_Some; [done|by eapply Hd].
Qed.

End Dense.

(** X5.  Ids are handed out consecutively from 1 and never reused, nor is a
    row ever deleted: in any run from the empty table, the ids reported are
    1, 2, ..., n in this order, where n is the counter at the end, and the
    table then holds a row for exactly the ids 1 to n. *)
Theorem ids_are_consecutive admins token ops :
  omap new_id (run admins token ops empty_db).1 =
    seqZ 1 (seq (run admins token ops empty_db).2) ∧
  0 <= seq (run admins token ops empty_db).2 ∧
  ∀ i, is_Some (rows (run admins token ops empty_db).2 !! i) ↔
       1 <= i <= seq (run admins token ops empty_db).2.
Proof.
  destruct (run_dense admins token ops empty_db empty_db_dense) as [[Hs Hd] Hids].
  split_and!; [|done|done].
  rewrite Hids. simpl. f_equal. lia.
Qed.

(** X6.  With a provider token configured, orders are recorded only when
    paid: in a run of the handlers from a table whose rows are all done,
    every row stays or is added as done, and no reply places a pending order,
    reports a payment or fulfils an order: /paid and /fulfill never
    succeed. *)
Theorem provider_token_skips_manual_path admins token ops d :
  Py.truthy token = true →
  Forall (λ o, by_handler o = true) ops →
  all_done d →
  all_done (run admins token ops d).2 ∧
  Forall (λ r, by_hand r = false) (run admins token ops d).1.
Proof.
  intros Ht. revert d. induction ops as [|o ops IH]; intros d Hall Hd.
  - split; [done|constructor].
  - apply Forall_cons in Hall as [Ho Hall].
    rewrite run_cons; simpl.
    destruct (exec_all_done admins token o d Ht Ho Hd) as [Hd1 Hr].
    destruct (IH _ Hall Hd1) as [Hd2 Hrs].
    split; [done|by constructor].
Qed.

Lemma provider_token_skips_manual_path_witness :
  all_done (run [9] sample_token
                (sample_ops ++ [CmdPaid (says alice "1"); CmdFulfill (says root "1")])
                empty_db).2 ∧
  Forall (λ r, by_hand r = false)
         (run [9] sample_token
              (sample_ops ++ [CmdPaid (says alice "1"); CmdFulfill (says root "1")])
              empty_db).1.
Proof.
  apply (provider_token_skips_manual_path [9] sample_token _ empty_db).
  - reflexivity.
  - vm_compute. repeat constructor.
  - intros i row H. simpl in H. by rewrite lookup_empty in H.
Defined.

(** ** Listings after an operation *)

Section Listings.

Lemma desc_NoDup (l : list (Z * order)) :
  StronglySorted (λ a b, a.1 > b.1) l → NoDup l.
Proof.
  induction 1 as [|a l Hl IH Ha]; constructor; [|done].
  intros Hin. rewrite Forall_forall in Ha. specialize (Ha a Hin). lia.
Qed.

(** Two listings in decreasing order of id with the same rows are equal. *)
Lemma desc_unique (l1 l2 : list (Z * order)) :
  StronglySorted (λ a b, a.1 > b.1) l1 →
  StronglySorted (λ a b, a.1 > b.1) l2 →
  (∀ x, x ∈ l1 ↔ x ∈ l2) → l1 = l2.
Proof.
  intros H1 H2 Hel.
  apply (StronglySorted_unique_strong (λ a b : Z * order, a.1 > b.1)); try done.
  - intros x1 x2 _ _ ? ?. lia.
  - apply NoDup_Permutation; auto using desc_NoDup.
Qed.

Lemma select_add_order uid uname opt amt st nt now d v :
  db_wf d →
  select_by_user v (add_order uid uname opt amt st nt now d).2 =
    if decide (uid = v)
    then (seq d + 1, Order uid uname opt amt st now nt) :: select_by_user v d
    else select_by_user v d.
Proof.
  intros Hwf.
  assert (Hnew : rows d !! (seq d + 1) = None).
  { destruct (rows d !! (seq d + 1)) eqn:E; [|done].
    assert (seq d + 1 <= seq d) by (apply Hwf; by eexists). lia. }
  apply desc_unique; [apply select_by_user_sorted| |].
  - case_decide; [|apply select_by_user_sorted].
    constructor; [apply select_by_user_sorted|].
    apply Forall_forall. intros [k row] [Hk _]%select_by_user_elem. simpl.
    assert (k <= seq d) by (apply Hwf; by eexists). lia.
  - intros [k row]. rewrite select_by_user_elem. simpl.
    rewrite lookup_insert_Some. case_decide as Hv.
    + rewrite elem_of_cons, select_by_user_elem. subst v. split.
      * intros [[[<- <-]|[_ Hr]] Hu]; [by left|by right].
      * intros [[= -> ->]|[Hr Hu]]; [by split; [left|]|].
        split; [right; split; [congruence|done]|done].
    + rewrite select_by_user_elem. split.
      * intros [[[<- <-]|[_ Hr]] Hu]; [done|done].
      * intros [Hr Hu]. split; [right; split; [congruence|done]|done].
Qed.

Lemma select_update_status st i d v :
  select_by_user v (update_status st i d) =
    restatus st i <$> select_by_user v d.
Proof.
  apply desc_unique; [apply select_by_user_sorted| |].
  - eapply StronglySorted_fmap; [|apply select_by_user_sorted].
    intros x y Hxy. unfold restatus. by repeat case_bool_decide.
  - intros [k row]. rewrite select_by_user_elem, list_elem_of_fmap.
    rewrite update_status_lookup. split.
    + intros [Hr Hu]. case_decide as Hk.
      * subst k. apply fmap_Some in Hr as (row0 & Hr0 & ->).
        exists (i, row0). split.
        -- unfold restatus. by rewrite bool_decide_eq_true_2.
        -- by apply select_by_user_elem.
      * exists (k, row). split.
        -- unfold restatus. by rewrite bool_decide_eq_false_2.
        -- by apply select_by_user_elem.
    + intros ([k0 row0] & Hx & [Hr0 Hu0]%select_by_user_elem).
      unfold restatus in Hx. simpl in Hx. case_bool_decide as Hk.
      * injection Hx as -> ->. subst k0. rewrite decide_True, Hr0 by done. done.
      * injection Hx as -> ->. rewrite decide_False by done. done.
Qed.

(** Rows of other orders are untouched by [restatus]. *)
Lemma restatus_others st i (l : list (Z * order)) :
  (∀ r, r ∈ l → r.1 ≠ i) → restatus st i <$> l = l.
Proof.
  induction l as [|r l IH]; intros Hl; [done|].
  csimpl. rewrite IH by (intros ? ?; apply Hl; by right).
  unfold restatus. rewrite bool_decide_eq_false_2; [done|].
  apply Hl. by left.
Qed.

End Listings.

(** X7.  A new order goes to the top of its user's listing: after
    [add_order] for user [uid] (as [process_option] and [got_payment] call
    it) [my_orders] answers that user with the new order first, followed by
    the lines listed before, and answers every other user as before. *)
Theorem new_order_tops_listing uid uname opt amt st nt now d m :
  db_wf d →
  (types.id (types.from_user m) = uid →
     my_orders m (add_order uid uname opt amt st nt now d).2 =
       Orders ((seq d + 1, opt, amt, st, now)
                 :: (listed <$> select_by_user uid d))) ∧
  (types.id (types.from_user m) ≠ uid →
     my_orders m (add_order uid uname opt amt st nt now d).2 = my_orders m d).
Proof.
  intros Hwf. unfold my_orders. split; intros Hu.
  - rewrite select_add_order, Hu, decide_True by done. done.
  - rewrite select_add_order, decide_False by done. done.
Qed.

Lemma new_order_tops_listing_witness :
  (types.id (types.from_user (says bob "")) = 6 →
     my_orders (says bob "") (add_order 6 "" "pay_500_5" 400 "done" None 80 sample_db).2 =
       Orders ((seq sample_db + 1, "pay_500_5", 400, "done", 80)
                 :: (listed <$> select_by_user 6 sample_db))) ∧
  (types.id (types.from_user (says bob "")) ≠ 6 →
     my_orders (says bob "") (add_order 6 "" "pay_500_5" 400 "done" None 80 sample_db).2 =
       my_orders (says bob "") sample_db).
Proof.
  apply (new_order_tops_listing 6 "" "pay_500_5" 400 "done" None 80 sample_db
           (says bob "")), sample_db_wf.
Defined.

(** X8.  A reported payment or a fulfilment shows in the listings as a
    change of status of one line and nothing else: when [cmd_paid] or
    [cmd_fulfill] succeeds for order [i], every user's selection has the same
    ids in the same order as before, the line of order [i] (in its owner's
    listing) has the new status, and the selection of a user who does not own
    order [i] is unchanged. *)
Theorem status_change_in_listings admins m d i v :
  (∀ ns, (cmd_paid admins m d).1 = PaymentReported i ns →
     select_by_user v (cmd_paid admins m d).2 =
       restatus "paid_waiting" i <$> select_by_user v d) ∧
  (∀ u, (cmd_fulfill admins m d).1 = Fulfilled i u →
     select_by_user v (cmd_fulfill admins m d).2 =
       restatus "done" i <$> select_by_user v d) ∧
  (∀ st, (∀ row, rows d !! i = Some row → user_id row ≠ v) →
     restatus st i <$> select_by_user v d = select_by_user v d).
Proof.
  split_and!.
  - intros ns.
    destruct (cmd_paid_cases admins m d)
      as [[_ [->| ->]]|(j & _ & [[_ ->]|(row & Hr & [[_ ->]|[Hs ->]])])]; try done.
    simpl. intros [= <- _]. apply select_update_status.
  - intros u.
    destruct (cmd_fulfill_cases admins m d)
      as [[_ ->]|[_ [[_ [->| ->]]|(j & _ & [[_ ->]|(row & Hr & [[_ ->]|[Hs ->]])])]]];
      try done.
    simpl. intros [= <- _]. apply select_update_status.
  - intros st Hown. apply restatus_others.
    intros [k row] [Hr Hu]%select_by_user_elem Hk. simpl in Hk. subst k.
    by destruct (Hown row Hr).
Qed.

(** ** When a handler raises *)

Section Raises.





End Raises.


(** ** The documented format of the allow-list *)

Section AdminFormat.






End AdminFormat.



(** ** From the button to the order *)

Section Buttons.


End Buttons.



(** ** Reports and deliveries in either order *)

Section Commute.

Variable admins : list Z.

Lemma db_ext (d1 d2 : db) :
  (∀ k, rows d1 !! k = rows d2 !! k) → seq d1 = seq d2 → d1 = d2.
Proof.
  destruct d1 as [r1 s1], d2 as [r2 s2]; simpl. intros Hr ->.
  f_equal. by apply map_eq.
Qed.

Lemma set_done_done row : status row = "done" → set_status "done" row = row.
Proof. destruct row; simpl. by intros ->. Qed.

(** The table of [cmd_paid], row by row. *)
Lemma cmd_paid_rows m d :
  seq (cmd_paid admins m d).2 = seq d ∧
  ∀ k, rows (cmd_paid admins m d).2 !! k =
       if decide (order_arg m = Some k) then report_row <$> rows d !! k
       else rows d !! k.
Proof.
  unfold cmd_paid, order_arg.
  destruct (Py.isdigit (Py.strip (types.get_args m))); simpl;
    [|split; [done|intros k; first [done|by case_decide]]].
  destruct (Py.int (Py.strip (types.get_args m))) as [i|];
    [|split; [done|intros k; first [done|by case_decide]]].
  destruct (rows d !! i) as [row|] eqn:Hr.
  - destruct (String.eqb (status row) "pending") eqn:Hs; simpl.
    + split; [done|]. intros k. rewrite lookup_alter.
      case_decide as E.
      * subst k. rewrite decide_True by done. rewrite Hr. simpl.
        unfold report_row. by rewrite Hs.
      * rewrite decide_False by congruence. done.
    + split; [done|]. intros k. case_decide as E; [|done].
      injection E as ->. rewrite Hr. simpl. unfold report_row. by rewrite Hs.
  - split; [done|]. intros k. case_decide as E; [|done].
    injection E as ->. by rewrite Hr.
Qed.

(** The table of [cmd_fulfill], row by row. *)
Lemma cmd_fulfill_rows m d :
  seq (cmd_fulfill admins m d).2 = seq d ∧
  ∀ k, rows (cmd_fulfill admins m d).2 !! k =
       if decide (types.id (types.from_user m) ∈ admins ∧ order_arg m = Some k)
       then set_status "done" <$> rows d !! k
       else rows d !! k.
Proof.
  unfold cmd_fulfill, order_arg.
  case_bool_decide as Ha; simpl;
    [|split; [done|intros k; first [done|case_decide as E; [by destruct E|done]]]].
  destruct (Py.isdigit (Py.strip (types.get_args m))); simpl;
    [|split; [done|intros k; first [done|case_decide as E; [by destruct E|done]]]].
  destruct (Py.int (Py.strip (types.get_args m))) as [i|];
    [|split; [done|intros k; first [done|case_decide as E; [by destruct E|done]]]].
  destruct (rows d !! i) as [row|] eqn:Hr.
  - destruct (String.eqb_spec (status row) "done") as [Hs|Hs]; simpl.
    + split; [done|]. intros k. case_decide as E; [|done].
      destruct E as [_ [= ->]]. rewrite Hr. simpl. by rewrite set_done_done.
    + split; [done|]. intros k. rewrite lookup_alter.
      case_decide as E.
      * subst k. rewrite decide_True by done. done.
      * rewrite decide_False; [done|]. intros [_ ?]. congruence.
  - split; [done|]. intros k. case_decide as E; [|done].
    destruct E as [_ [= ->]]. by rewrite Hr.
Qed.

Lemma report_row_done row :
  report_row (set_status "done" row) = set_status "done" row.
Proof. done. Qed.

Lemma done_report_row row :
  set_status "done" (report_row row) = set_status "done" row.
Proof. unfold report_row. by destruct (String.eqb (status row) "pending"). Qed.

Lemma report_row_twice row : report_row (report_row row) = report_row row.
Proof.
  unfold report_row.
  destruct (String.eqb (status row) "pending") eqn:E; simpl; [done|].
  by rewrite E.
Qed.

End Commute.

(** X12.  On the table, reports and deliveries can come in either order and
    repeat without harm: a /paid and a /fulfill (for the same order or for two
    orders, from any senders) leave the same table whichever is handled
    first, and so do two /paid or two /fulfill; handling the same /paid or the
    same /fulfill twice leaves the table of handling it once. *)
Theorem status_commands_commute admins m1 m2 d :
  (cmd_paid admins m1 (cmd_fulfill admins m2 d).2).2 =
    (cmd_fulfill admins m2 (cmd_paid admins m1 d).2).2 ∧
  (cmd_paid admins m1 (cmd_paid admins m2 d).2).2 =
    (cmd_paid admins m2 (cmd_paid admins m1 d).2).2 ∧
  (cmd_fulfill admins m1 (cmd_fulfill admins m2 d).2).2 =
    (cmd_fulfill admins m2 (cmd_fulfill admins m1 d).2).2 ∧
  (cmd_paid admins m1 (cmd_paid admins m1 d).2).2 = (cmd_paid admins m1 d).2 ∧
  (cmd_fulfill admins m1 (cmd_fulfill admins m1 d).2).2 =
    (cmd_fulfill admins m1 d).2.
Proof.
  split_and!; apply db_ext;
    repeat (first [rewrite (proj1 (cmd_paid_rows admins _ _))
                  |rewrite (proj1 (cmd_fulfill_rows admins _ _))]);
    try done; intros k;
    repeat (first [rewrite (proj2 (cmd_paid_rows admins _ _))
                  |rewrite (proj2 (cmd_fulfill_rows admins _ _))]);
    repeat case_decide; try done;
    destruct (rows d !! k) as [row|]; simpl; try done; f_equal;
    auto using report_row_done, done_report_row, report_row_twice.
Qed.

(** ** Orders the bot can reach *)

(** X13.  Every order the bot has created can be named in a command: for a
    row with id [i] in a table reached from the empty one, the numeral of [i]
    is accepted as the argument, so /paid with it reports the payment if the
    order is pending and answers InvalidState otherwise, and /fulfill with it
    from an administrator fulfils the order unless it is done. *)
Theorem every_order_is_addressable admins token ops i row u :
  rows (run admins token ops empty_db).2 !! i = Some row →
  cmd_paid admins (says u (PyText.str i)) (run admins token ops empty_db).2 =
    (if String.eqb (status row) "pending"
     then (PaymentReported i admins,
           update_status "paid_waiting" i (run admins token ops empty_db).2)
     else (InvalidState (status row), (run admins token ops empty_db).2)) ∧
  (types.id u ∈ admins →
   cmd_fulfill admins (says u (PyText.str i)) (run admins token ops empty_db).2 =
     (if String.eqb (status row) "done"
      then (AlreadyDone, (run admins token ops empty_db).2)
      else (Fulfilled i (user_id row),
            update_status "done" i (run admins token ops empty_db).2))).
Proof.
  intros Hr.
  destruct (run_dense admins token ops empty_db empty_db_dense) as [[_ Hd] _].
  assert (Hi : 0 <= i).
  { assert (1 <= i <= seq (run admins token ops empty_db).2)
      by (apply Hd; by eexists). lia. }
  split.
  - by apply cmd_paid_on; [apply str_names_order|].
  - intros Ha.
    by apply (cmd_fulfill_on admins (says u (PyText.str i))); [|apply str_names_order|].
Qed.

Lemma every_order_is_addressable_witness :
  cmd_paid [9] (says root (PyText.str 3)) (run [9] None sample_ops empty_db).2 =
    (if String.eqb (status (Order 6 "" "500 UC" 400 "pending" 30 None)) "pending"
     then (PaymentReported 3 [9],
           update_status "paid_waiting" 3 (run [9] None sample_ops empty_db).2)
     else (InvalidState (status (Order 6 "" "500 UC" 400 "pending" 30 None)),
           (run [9] None sample_ops empty_db).2)) ∧
  (types.id root ∈ [9] →
   cmd_fulfill [9] (says root (PyText.str 3)) (run [9] None sample_ops empty_db).2 =
     (if String.eqb (status (Order 6 "" "500 UC" 400 "pending" 30 None)) "done"
      then (AlreadyDone, (run [9] None sample_ops empty_db).2)
      else (Fulfilled 3 (user_id (Order 6 "" "500 UC" 400 "pending" 30 None)),
            update_status "done" 3 (run [9] None sample_ops empty_db).2))).
Proof.
  apply (every_order_is_addressable [9] None sample_ops 3
           (Order 6 "" "500 UC" 400 "pending" 30 None) root).
  vm_compute. reflexivity.
Defined.

(** X14.  Every table the handlers reach from the empty one has rows with
    status pending, paid_waiting or done only. *)
Theorem reachable_statuses admins token ops :
  Forall (λ o, by_handler o = true) ops →
  statuses_on_path (run admins token ops empty_db).2.
Proof.
  intros Hall. apply run_statuses; [done|]. apply empty_db_statuses.
Qed.

Lemma reachable_statuses_witness :
  statuses_on_path
    (run [9] None (sample_ops ++ [CmdPaid (says bob "3"); CmdFulfill (says root "1")])
         empty_db).2.
Proof.
  apply (reachable_statuses [9] None
           (sample_ops ++ [CmdPaid (says bob "3"); CmdFulfill (says root "1")])).
  vm_compute. repeat constructor.
Defined.

(** ** The two ways to an order *)

Section Invoices.

Variable admins : list Z.
Variable token : option string.
Variable CURRENCY : string.

(** An invoice is sent exactly when [process_option] answers so. *)
Lemma invoice_sent_reply call now d :
  is_Some (invoice_sent token CURRENCY call) ↔
  (process_option admins token call now d).1 = InvoiceSent.
Proof.
  unfold invoice_sent, process_option.
  destruct (Py.split "_" (types.data call)) as [|? [|uc [|a ?]]];
    try (split; [by intros [? ?]|done]).
  destruct (Py.int a); [|split; [by intros [? ?]|done]].
  destruct (Py.truthy token); simpl; [by split; [|eexists]|].
  split; [by intros [? ?]|done].
Qed.

Lemma append_length (a b : string) :
  String.length (a +:+ b) = (String.length a + String.length b)%nat.
Proof. induction a as [|c a IH]; simpl; [done|]. by rewrite IH. Qed.

End Invoices.

(** X15.  The same button leaves different option texts on the two paths.
    If [process_option] sends an invoice, and the payment comes back from the
    same user with the payload and the total of that invoice, [got_payment]
    records a done order for that user at the amount of the button, but its
    option is the payload text, not the title of the package: with a provider
    token the listing shows [pay_<uc>_<user id>] where the order placed by
    hand shows [<uc> UC]. *)
Theorem paid_order_keeps_payload_text admins token cur call inv m pay now d :
  invoice_sent token cur call = Some inv →
  types.from_user m = types.cb_from_user call →
  types.invoice_payload pay = invoices.payload inv →
  types.total_amount pay = invoice_total inv →
  ∃ uc amt row,
    invoices.title inv = uc +:+ " UC" ∧
    invoices.prices inv = [{| invoices.label := uc +:+ " UC";
                              invoices.amount := amt |}] ∧
    rows (got_payment admins m pay now d).2 !! (seq d + 1) = Some row ∧
    user_id row = invoices.chat_id inv ∧
    amount row = amt ∧ status row = "done" ∧
    package row =
      "pay_" +:+ uc +:+ "_" +:+ PyText.str (types.id (types.cb_from_user call)) ∧
    package row ≠ invoices.title inv.
Proof.
  unfold invoice_sent. intros Hinv Hu Hp Ht.
  destruct (Py.split "_" (types.data call)) as [|? [|uc [|a ?]]]; try done.
  destruct (Py.int a) as [amt|]; [|done].
  destruct (Py.truthy token); [|done].
  injection Hinv as <-.
  exists uc, amt,
    (Order (types.id (types.from_user m))
           (Py.or_empty (types.username (types.from_user m)))
           (types.invoice_payload pay) (types.total_amount pay) "done" now None).
  cbn [invoices.title invoices.prices invoices.chat_id invoices.payload] in *.
  cbn [user_id amount status package].
  split_and!.
  - done.
  - done.
  - unfold got_payment. simpl. apply lookup_insert_eq.
  - by rewrite Hu.
  - rewrite Ht. unfold invoice_total. simpl. lia.
  - done.
  - by rewrite Hp.
  - rewrite Hp. intros E.
    apply (f_equal String.length) in E.
    change ("pay_" +:+ uc +:+ "_" +:+ PyText.str (types.id (types.cb_from_user call)))
      with ("pay_" +:+ (uc +:+ String "_" (PyText.str (types.id (types.cb_from_user call)))))
      in E.
    rewrite !append_length in E. simpl in E. lia.
Qed.

Lemma paid_order_keeps_payload_text_witness :
  ∃ uc amt row,
    invoices.title sample_invoice = uc +:+ " UC" ∧
    invoices.prices sample_invoice =
      [{| invoices.label := uc +:+ " UC"; invoices.amount := amt |}] ∧
    rows (got_payment [9] (says alice "") paid_500 20 empty_db).2
         !! (seq empty_db + 1) = Some row ∧
    user_id row = invoices.chat_id sample_invoice ∧
    amount row = amt ∧ status row = "done" ∧
    package row =
      "pay_" +:+ uc +:+ "_" +:+
        PyText.str (types.id (types.cb_from_user (presses alice "opt_500_400"))) ∧
    package row ≠ invoices.title sample_invoice.
Proof.
  apply (paid_order_keeps_payload_text [9] sample_token "USD"
           (presses alice "opt_500_400") sample_invoice (says alice "")
           paid_500 20 empty_db);
    reflexivity.
Defined.
